(** * The PHP-to-Python bridge of the crop recommendation model

    A shallow embedding of [ml/api_bridge.py]: one process run reads a JSON
    document from standard input, consults the collaborator
    [CropRecommendationML] through [load_models], [predict] and
    [get_feature_importance], prints one JSON document and exits.
    Serialising the success response can fail, for it holds what the
    collaborator returned; the run then ends on the generic error path.

    Python values are an inductive type, dictionaries are association lists
    in insertion order, exceptions are values of an error monad whose state
    is what the process has printed and which collaborator calls it made. *)

From Stdlib Require Import String Ascii ZArith List Bool Lia.
From Stdlib Require Import Floats.SpecFloat DecimalString.
Import ListNotations.

Set Warnings "-register-all".

Local Open Scope string_scope.
Local Open Scope Z_scope.

(** ** Python values and exceptions *)

Module Py.

(** A Python number as [json] produces it: an [int] of any size or a
    binary64 [float]. *)
Inductive number :=
| Int (z : Z)
| Float (f : spec_float).

(** The values [json.load] builds and [json.dumps] prints. A [dict] keeps
    its insertion order. *)
Inductive value :=
| VNone
| VBool (b : bool)
| VNum (n : number)
| VStr (s : string)
| VList (l : list value)
| VDict (d : list (string * value)).

(** [type(v).__name__] *)
Definition type_name (v : value) : string :=
  match v with
  | VNone => "NoneType"
  | VBool _ => "bool"
  | VNum (Int _) => "int"
  | VNum (Float _) => "float"
  | VStr _ => "str"
  | VList _ => "list"
  | VDict _ => "dict"
  end.

(** [bool(v)], the test an [if v:] performs. *)
Definition truthy (v : value) : bool :=
  match v with
  | VNone => false
  | VBool b => b
  | VNum (Int z) => negb (z =? 0)
  | VNum (Float (S754_zero _)) => false
  | VNum (Float _) => true
  | VStr s => negb (String.eqb s "")
  | VList l => match l with [] => false | _ :: _ => true end
  | VDict d => match d with [] => false | _ :: _ => true end
  end.

Definition is_dict (v : value) : bool :=
  match v with VDict _ => true | _ => false end.

(** Key lookup in a [dict]. *)
Fixpoint lookup (k : string) (d : list (string * value)) : option value :=
  match d with
  | [] => None
  | (k', v) :: d' => if String.eqb k k' then Some v else lookup k d'
  end.

(** [d.get(k, default)] on a [dict]. *)
Definition dict_get (d : list (string * value)) (k : string) (default : value)
  : value :=
  match lookup k d with
  | Some v => v
  | None => default
  end.

(** The exceptions the bridge can see. [SystemExit] derives from
    [BaseException] only; [FileNotFoundError] stands for that class and its
    subclasses; [Exception cls msg] is a condition of any other class [cls]
    derived from [Exception], with [str(e) = msg]. *)
Inductive exn :=
| SystemExit (code : Z)
| FileNotFoundError (msg : string)
| Exception (cls : string) (msg : string).

(** [isinstance(e, FileNotFoundError)] *)
Definition is_FileNotFoundError (e : exn) : bool :=
  match e with FileNotFoundError _ => true | _ => false end.

(** [isinstance(e, Exception)] *)
Definition is_Exception (e : exn) : bool :=
  match e with SystemExit _ => false | _ => true end.

(** [str(e)] *)
Definition str (e : exn) : string :=
  match e with
  | SystemExit code => NilZero.string_of_int (Z.to_int code)
  | FileNotFoundError msg => msg
  | Exception _ msg => msg
  end.

Inductive result (A : Type) :=
| Return (a : A)
| Raise (e : exn).
Arguments Return {A} a.
Arguments Raise {A} e.

(** [v.get(k, default)]: only a [dict] has the method. *)
Definition get (v : value) (k : string) (default : value) : result value :=
  match v with
  | VDict d => Return (dict_get d k default)
  | _ => Raise (Exception "AttributeError"
                  ("'" ++ type_name v ++ "' object has no attribute 'get'"))
  end.

(** [float(z)] for an [int]: the nearest binary64, ties to even. *)
Definition float_of_int (z : Z) : spec_float :=
  binary_normalize 53 1024 z 0 false.

(** [float(n)] *)
Definition float (n : number) : result spec_float :=
  match n with
  | Float f => Return f
  | Int z =>
      match float_of_int z with
      | S754_infinity _ =>
          Raise (Exception "OverflowError" "int too large to convert to float")
      | f => Return f
      end
  end.

(** [os.path.join(a, b)] for a relative [b] (POSIX). *)
Definition ends_with_slash (a : string) : bool :=
  match rev (list_ascii_of_string a) with
  | c :: _ => Ascii.eqb c "/"%char
  | [] => false
  end.

Definition os_path_join (a b : string) : string :=
  if String.eqb a "" then b
  else if ends_with_slash a then a ++ b
  else a ++ "/" ++ b.

End Py.

(** ** The bridge *)

Module ApiBridge.
Import Py.

(** What a collaborator call can raise: a condition derived from
    [Exception], either a [FileNotFoundError] or one of another class. *)
Inductive failure :=
| NotFound (msg : string)
| Failed (cls : string) (msg : string).

Definition exn_of_failure (f : failure) : exn :=
  match f with
  | NotFound msg => FileNotFoundError msg
  | Failed cls msg => Exception cls msg
  end.

(** What [json.load(sys.stdin)] meets: a stream that is not JSON, with the
    decoder's description of the defect, or a document. *)
Inductive stream :=
| Malformed (description : string)
| Document (v : value).

(** Everything outside [main]: the input stream, the directory of the
    script, the file system, the three operations of
    [CropRecommendationML] and the JSON encoder of the interpreter.
    [predict] returns a sequence of records, [get_feature_importance] a
    sequence of (name, score) pairs. [json_dumps_error d] is [None] when
    [json.dumps(d)] returns the text of [d] and [Some (cls, msg)] when it
    raises a condition of class [cls] with text [msg]: a [ValueError] for
    an integer beyond the interpreter's digit limit, a [RecursionError]
    for nesting beyond its recursion limit. *)
Record world := {
  stdin : stream;
  script_dir : string;
  os_path_exists : string -> bool;
  load_models : string -> failure + unit;
  predict : list (string * value) -> value -> failure + list value;
  get_feature_importance : string -> failure + list (string * number);
  json_dumps_error : value -> option (string * string)
}.

(** The collaborator calls a run makes, in order. *)
Inductive call :=
| Call_init
| Call_load_models (path : string)
| Call_predict (features : list (string * value)) (model_type : value)
| Call_get_feature_importance (model_name : string).

(** The observable state of the process: the documents printed so far
    (printing the text of the document [d] puts [d] on a line of its own)
    and the collaborator calls made so far. Only [main] prints: the
    collaborator is taken to leave standard output alone. *)
Record process := {
  stdout : list value;
  calls : list call
}.

Definition start : process := {| stdout := []; calls := [] |}.

(** State and exceptions. *)
Definition M (A : Type) : Type := process -> result A * process.

Definition ret {A} (a : A) : M A := fun p => (Return a, p).

Definition raise {A} (e : exn) : M A := fun p => (Raise e, p).

Definition bind {A B} (m : M A) (k : A -> M B) : M B :=
  fun p =>
    match m p with
    | (Return a, p') => k a p'
    | (Raise e, p') => (Raise e, p')
    end.

Notation "x <- m ;; k" := (bind m (fun x => k))
  (at level 61, m at next level, right associativity).
Notation "m ;; k" := (bind m (fun _ => k))
  (at level 61, right associativity).

Definition lift {A} (r : result A) : M A := fun p => (r, p).

(** [print(text)] for the text of the document [d]. *)
Definition print (d : value) : M unit :=
  fun p => (Return tt, {| stdout := stdout p ++ [d]; calls := calls p |}).

(** [sys.exit(code)] *)
Definition sys_exit {A} (code : Z) : M A := raise (SystemExit code).

(** A collaborator call: logged, then its outcome. *)
Definition delegate {A} (c : call) (r : failure + A) : M A :=
  fun p =>
    let p' := {| stdout := stdout p; calls := calls p ++ [c] |} in
    match r with
    | inr a => (Return a, p')
    | inl f => (Raise (exn_of_failure f), p')
    end.

(** [try: body  except FileNotFoundError: h1  except Exception as e: h2(e)].
    The first clause whose class the exception is an instance of runs; an
    exception no clause matches, or one raised by a handler, propagates. *)
Definition try_except {A} (body : M A) (h1 : M A) (h2 : exn -> M A) : M A :=
  fun p =>
    match body p with
    | (Return a, p') => (Return a, p')
    | (Raise e, p') =>
        if is_FileNotFoundError e then h1 p'
        else if is_Exception e then h2 e p'
        else (Raise e, p')
    end.

(** [[{'feature': f[0], 'importance': float(f[1])} for f in feature_importance]] *)
Fixpoint importance_records (fi : list (string * number)) : result (list value) :=
  match fi with
  | [] => Return []
  | f :: fi' =>
      match float (snd f) with
      | Raise e => Raise e
      | Return x =>
          match importance_records fi' with
          | Raise e => Raise e
          | Return rs =>
              Return (VDict [("feature", VStr (fst f));
                             ("importance", VNum (Float x))] :: rs)
          end
      end
  end.

Definition model_path (w : world) : string :=
  os_path_join (script_dir w) "crop_ml_models.pkl".

(** The response of the proactive check (lines 30-34). *)
Definition missing_response (path : string) : value :=
  VDict [("success", VBool false);
         ("error", VStr ("ML model file not found at " ++ path));
         ("message", VStr "Please train the models first: python ml/crop_recommendation_ml.py train")].

(** The response of the [FileNotFoundError] clause (lines 77-81). *)
Definition untrained_response : value :=
  VDict [("success", VBool false);
         ("error", VStr "ML models not trained. Please run training script first.");
         ("message", VStr "Run: python ml/crop_recommendation_ml.py train")].

(** The response of the [Exception] clause (lines 86-89). *)
Definition generic_response (e : exn) : value :=
  VDict [("success", VBool false);
         ("error", VStr (str e))].

(** The response of the success path (lines 65-70). *)
Definition success_response (predictions : list value) (feature_importance : value)
  : value :=
  VDict [("success", VBool true);
         ("predictions", VList predictions);
         ("top_recommendation",
           match predictions with p0 :: _ => p0 | [] => VNone end);
         ("feature_importance", feature_importance)].

(** [json.dumps(d)] for a document that holds what the collaborator
    returned: the encoder serialises it or raises. *)
Definition json_dumps (w : world) (d : value) : M value :=
  match json_dumps_error w d with
  | Some (cls, msg) => raise (Exception cls msg)
  | None => ret d
  end.

(** The body of the [try] (lines 19-73). The response of line 30 holds a
    boolean and two strings, which [json.dumps] always serialises; the
    response of line 65 goes through the encoder. *)
Definition body (w : world) : M unit :=
  input_data <- lift (match stdin w with
                      | Malformed description =>
                          Raise (Exception "JSONDecodeError" description)
                      | Document v => Return v
                      end) ;;
  (* ml = CropRecommendationML(): the collaborator object is created; its
     fallible operations are the three of [world] *)
  delegate Call_init (inr tt) ;;
  let model_path := model_path w in
  (if negb (os_path_exists w model_path)
   then print (missing_response model_path) ;; sys_exit 1
   else ret tt) ;;
  delegate (Call_load_models model_path) (load_models w model_path) ;;
  fN <- lift (get input_data "N" (VNum (Int 0))) ;;
  fP <- lift (get input_data "P" (VNum (Int 0))) ;;
  fK <- lift (get input_data "K" (VNum (Int 0))) ;;
  ftemperature <- lift (get input_data "temperature" (VNum (Int 0))) ;;
  fhumidity <- lift (get input_data "humidity" (VNum (Int 0))) ;;
  fph <- lift (get input_data "ph" (VNum (Int 0))) ;;
  frainfall <- lift (get input_data "rainfall" (VNum (Int 0))) ;;
  let features :=
    [("N", fN); ("P", fP); ("K", fK); ("temperature", ftemperature);
     ("humidity", fhumidity); ("ph", fph); ("rainfall", frainfall)] in
  model_type <- lift (get input_data "model_type" (VStr "ensemble")) ;;
  predictions <- delegate (Call_predict features model_type)
                   (predict w features model_type) ;;
  include_importance <- lift (get input_data "include_importance" (VBool false)) ;;
  feature_importance <-
    (if truthy include_importance
     then fi <- delegate (Call_get_feature_importance "random_forest")
                  (get_feature_importance w "random_forest") ;;
          rs <- lift (importance_records fi) ;;
          ret (VList rs)
     else ret VNone) ;;
  text <- json_dumps w (success_response predictions feature_importance) ;;
  print text.

(** [main()] (lines 15-91). The responses of the two handlers hold a
    boolean and strings only, which [json.dumps] always serialises. *)
Definition main (w : world) : M unit :=
  try_except (body w)
    (print untrained_response ;; sys_exit 1)
    (fun e => print (generic_response e) ;; sys_exit 1).

(** What the caller of the process observes. A normal return of [main]
    ends the interpreter with status 0, [SystemExit(code)] with [code], any
    other uncaught exception with status 1. *)
Record outcome := {
  exit_code : Z;
  output : list value;
  trace : list call
}.

Definition run (w : world) : outcome :=
  let (r, p) := main w start in
  {| exit_code := match r with
                  | Return _ => 0
                  | Raise (SystemExit code) => code
                  | Raise _ => 1
                  end;
     output := stdout p;
     trace := calls p |}.

(** ** Vocabulary of the statements *)

(** The field [k] of a printed document. *)
Definition field (k : string) (doc : value) : option value :=
  match doc with
  | VDict d => lookup k d
  | _ => None
  end.

(** The keys of a printed document, in order. *)
Definition keys (doc : value) : list string :=
  match doc with
  | VDict d => map fst d
  | _ => []
  end.

Definition feature_names : list string :=
  ["N"; "P"; "K"; "temperature"; "humidity"; "ph"; "rainfall"].

Definition is_number (v : value) : bool :=
  match v with VNum _ => true | _ => false end.

Definition is_load (c : call) : bool :=
  match c with Call_load_models _ => true | _ => false end.

Definition is_predict (c : call) : bool :=
  match c with Call_predict _ _ => true | _ => false end.

(** What the two [except] clauses print for an exception one of them
    catches. *)
Definition caught_response (e : exn) : value :=
  if is_FileNotFoundError e then untrained_response else generic_response e.

(** The feature mapping built from a request (lines 41-49). *)
Definition features_of (d : list (string * value)) : list (string * value) :=
  map (fun k => (k, dict_get d k (VNum (Int 0)))) feature_names.

(** Line 52. *)
Definition model_type_of (d : list (string * value)) : value :=
  dict_get d "model_type" (VStr "ensemble").

(** The value tested on line 59. *)
Definition include_importance_of (d : list (string * value)) : value :=
  dict_get d "include_importance" (VBool false).

Definition outcome_of (code : Z) (doc : value) (tr : list call) : outcome :=
  {| exit_code := code; output := [doc]; trace := tr |}.

(** The calls of a run that reaches [predict], and of one that reaches
    [get_feature_importance]. *)
Definition upto_predict (w : world) (d : list (string * value)) : list call :=
  [Call_init; Call_load_models (model_path w);
   Call_predict (features_of d) (model_type_of d)].

Definition upto_importance (w : world) (d : list (string * value)) : list call :=
  upto_predict w d ++ [Call_get_feature_importance "random_forest"].

(** The paths through [main], each with the conditions under which a run
    takes it and what the run then yields. *)
Inductive path (w : world) : outcome -> Prop :=
| Path_malformed description :
    stdin w = Malformed description ->
    path w (outcome_of 1
              (generic_response (Exception "JSONDecodeError" description)) [])
| Path_missing v :
    stdin w = Document v ->
    os_path_exists w (model_path w) = false ->
    path w (outcome_of 1 (missing_response (model_path w)) [Call_init])
| Path_load_failed v f :
    stdin w = Document v ->
    os_path_exists w (model_path w) = true ->
    load_models w (model_path w) = inl f ->
    path w (outcome_of 1 (caught_response (exn_of_failure f))
              [Call_init; Call_load_models (model_path w)])
| Path_not_dict v :
    stdin w = Document v ->
    is_dict v = false ->
    os_path_exists w (model_path w) = true ->
    load_models w (model_path w) = inr tt ->
    path w (outcome_of 1
              (generic_response (Exception "AttributeError"
                 ("'" ++ type_name v ++ "' object has no attribute 'get'")))
              [Call_init; Call_load_models (model_path w)])
| Path_predict_failed d f :
    stdin w = Document (VDict d) ->
    os_path_exists w (model_path w) = true ->
    load_models w (model_path w) = inr tt ->
    predict w (features_of d) (model_type_of d) = inl f ->
    path w (outcome_of 1 (caught_response (exn_of_failure f))
              (upto_predict w d))
| Path_plain d predictions :
    stdin w = Document (VDict d) ->
    os_path_exists w (model_path w) = true ->
    load_models w (model_path w) = inr tt ->
    predict w (features_of d) (model_type_of d) = inr predictions ->
    truthy (include_importance_of d) = false ->
    json_dumps_error w (success_response predictions VNone) = None ->
    path w (outcome_of 0 (success_response predictions VNone)
              (upto_predict w d))
| Path_importance_failed d predictions f :
    stdin w = Document (VDict d) ->
    os_path_exists w (model_path w) = true ->
    load_models w (model_path w) = inr tt ->
    predict w (features_of d) (model_type_of d) = inr predictions ->
    truthy (include_importance_of d) = true ->
    get_feature_importance w "random_forest" = inl f ->
    path w (outcome_of 1 (caught_response (exn_of_failure f))
              (upto_importance w d))
| Path_importance_overflow d predictions fi e :
    stdin w = Document (VDict d) ->
    os_path_exists w (model_path w) = true ->
    load_models w (model_path w) = inr tt ->
    predict w (features_of d) (model_type_of d) = inr predictions ->
    truthy (include_importance_of d) = true ->
    get_feature_importance w "random_forest" = inr fi ->
    importance_records fi = Raise e ->
    path w (outcome_of 1 (generic_response e) (upto_importance w d))
| Path_importance d predictions fi rs :
    stdin w = Document (VDict d) ->
    os_path_exists w (model_path w) = true ->
    load_models w (model_path w) = inr tt ->
    predict w (features_of d) (model_type_of d) = inr predictions ->
    truthy (include_importance_of d) = true ->
    get_feature_importance w "random_forest" = inr fi ->
    importance_records fi = Return rs ->
    json_dumps_error w (success_response predictions (VList rs)) = None ->
    path w (outcome_of 0 (success_response predictions (VList rs))
              (upto_importance w d))
| Path_plain_refused d predictions cls msg :
    stdin w = Document (VDict d) ->
    os_path_exists w (model_path w) = true ->
    load_models w (model_path w) = inr tt ->
    predict w (features_of d) (model_type_of d) = inr predictions ->
    truthy (include_importance_of d) = false ->
    json_dumps_error w (success_response predictions VNone)
      = Some (cls, msg) ->
    path w (outcome_of 1 (generic_response (Exception cls msg))
              (upto_predict w d))
| Path_importance_refused d predictions fi rs cls msg :
    stdin w = Document (VDict d) ->
    os_path_exists w (model_path w) = true ->
    load_models w (model_path w) = inr tt ->
    predict w (features_of d) (model_type_of d) = inr predictions ->
    truthy (include_importance_of d) = true ->
    get_feature_importance w "random_forest" = inr fi ->
    importance_records fi = Return rs ->
    json_dumps_error w (success_response predictions (VList rs))
      = Some (cls, msg) ->
    path w (outcome_of 1 (generic_response (Exception cls msg))
              (upto_importance w d)).

(** ** Sample runs *)

Definition rice : value :=
  VDict [("crop", VStr "rice");
         ("confidence", VNum (Float (S754_finite false 7881299347898368 (-53))))].

Definition maize : value :=
  VDict [("crop", VStr "maize");
         ("confidence", VNum (Float (S754_finite false 4503599627370496 (-54))))].

(** The encoder of an interpreter with the default limit of 4300 digits
    on the text of an [int]. An [int] has more than 4300 digits when its
    magnitude reaches 10^4300, which lies between 2^14284 and 2^14285:
    the bit length settles all other magnitudes. *)
Definition long_int (z : Z) : bool :=
  let bits := Z.log2 (Z.abs z) in
  if bits <? 14284 then false
  else if 14284 <? bits then true
  else 10 ^ 4300 <=? Z.abs z.

Fixpoint exceeds_digits (v : value) : bool :=
  match v with
  | VNum (Int z) => long_int z
  | VList l => existsb exceeds_digits l
  | VDict d => existsb (fun kv => exceeds_digits (snd kv)) d
  | _ => false
  end.

Definition default_encoder (d : value) : option (string * string) :=
  if exceeds_digits d
  then Some ("ValueError",
             "Exceeds the limit (4300 digits) for integer string conversion; use sys.set_int_max_str_digits() to increase the limit")
  else None.

(** A deployment under [/var/www/html/ml] whose collaborator answers. *)
Definition deployment (s : stream) (trained : bool) : world :=
  {| stdin := s;
     script_dir := "/var/www/html/ml";
     os_path_exists := fun path =>
       trained && String.eqb path "/var/www/html/ml/crop_ml_models.pkl";
     load_models := fun _ => inr tt;
     predict := fun _ _ => inr [rice; maize];
     get_feature_importance := fun _ =>
       inr [("rainfall", Float (S754_finite false 6305039478318694 (-54)));
            ("humidity", Int 1)];
     json_dumps_error := default_encoder |}.

(** The same deployment when the artifact vanishes between the existence
    check and the load. *)
Definition racing_deployment (s : stream) : world :=
  {| stdin := s;
     script_dir := "/var/www/html/ml";
     os_path_exists := fun _ => true;
     load_models := fun path =>
       inl (NotFound ("[Errno 2] No such file or directory: '" ++ path ++ "'"));
     predict := fun _ _ => inr [rice; maize];
     get_feature_importance := fun _ => inr [];
     json_dumps_error := default_encoder |}.

Definition empty_request : value := VDict [].

Definition misshapen_request : value := VDict [("N", VStr "abc")].

Definition numeric_flag_request : value :=
  VDict [("include_importance", VNum (Int 1))].

Definition xgboost_request : value :=
  VDict [("model_type", VStr "xgboost"); ("include_importance", VBool true)].

(** What the deployment answers to a request that asks for importances. *)
Definition importance_response : value :=
  success_response [rice; maize]
    (VList [VDict [("feature", VStr "rainfall");
                   ("importance",
                     VNum (Float (S754_finite false 6305039478318694 (-54))))];
            VDict [("feature", VStr "humidity");
                   ("importance",
                     VNum (Float (S754_finite false 4503599627370496 (-52))))]]).

(** The request of the example in the specification. *)
Definition sample_request : value :=
  VDict [("N", VNum (Int 90)); ("P", VNum (Int 42)); ("K", VNum (Int 43));
         ("temperature", VNum (Float (S754_finite false 5854679515581645 (-48))));
         ("humidity", VNum (Int 82));
         ("ph", VNum (Float (S754_finite false 7318349394477056 (-50))));
         ("rainfall", VNum (Float (S754_finite false 7138909096824013 (-45))));
         ("model_type", VStr "ensemble")].

(** ** Vocabulary of the further properties *)

(** The keys of a request that [main] reads (lines 42-48, 52, 59). *)
Definition request_keys : list string :=
  feature_names ++ ["model_type"; "include_importance"].

(** The world [w] with another input stream. *)
Definition with_stdin (w : world) (s : stream) : world :=
  {| stdin := s;
     script_dir := script_dir w;
     os_path_exists := os_path_exists w;
     load_models := load_models w;
     predict := predict w;
     get_feature_importance := get_feature_importance w;
     json_dumps_error := json_dumps_error w |}.

(** A deployment with the artifact in place whose collaborator answers as
    given. *)
Definition staged (s : stream) (l : failure + unit)
  (p : failure + list value) (g : failure + list (string * number)) : world :=
  {| stdin := s;
     script_dir := "/var/www/html/ml";
     os_path_exists := fun _ => true;
     load_models := fun _ => l;
     predict := fun _ _ => p;
     get_feature_importance := fun _ => g;
     json_dumps_error := default_encoder |}.

(** A request with keys [main] never reads. *)
Definition noisy_request : value :=
  VDict [("farm", VStr "north field"); ("N", VNum (Int 90));
         ("include_importance", VBool true)].

Definition quiet_request : value :=
  VDict [("include_importance", VBool true); ("N", VNum (Int 90))].

End ApiBridge.

(** ** The paths of a run *)

Module Paths.
Import Py ApiBridge.

Ltac unfold_run :=
  unfold run, main, try_except, body, json_dumps, bind, lift, delegate, print,
    sys_exit, raise, ret, start;
  cbv zeta.

Lemma importance_records_raise fi e :
  importance_records fi = Raise e ->
  e = Exception "OverflowError" "int too large to convert to float".
Proof.
  induction fi as [|[name score] fi IH]; simpl; [discriminate|].
  destruct score as [z|f]; simpl.
  - destruct (float_of_int z); try (intros H; injection H as <-; reflexivity);
      destruct (importance_records fi); try discriminate;
      intros H; injection H as <-; auto.
  - destruct (importance_records fi); [discriminate|].
    intros H; injection H as <-; auto.
Qed.

Section Run.
Variable w : world.

Lemma run_malformed description :
  stdin w = Malformed description ->
  run w = outcome_of 1 (generic_response (Exception "JSONDecodeError" description)) [].
Proof. intros H. unfold_run. rewrite H. reflexivity. Qed.

Lemma run_missing v :
  stdin w = Document v ->
  os_path_exists w (model_path w) = false ->
  run w = outcome_of 1 (missing_response (model_path w)) [Call_init].
Proof. intros H E. unfold_run. rewrite H, E. reflexivity. Qed.

Lemma run_load_failed v f :
  stdin w = Document v ->
  os_path_exists w (model_path w) = true ->
  load_models w (model_path w) = inl f ->
  run w = outcome_of 1 (caught_response (exn_of_failure f))
            [Call_init; Call_load_models (model_path w)].
Proof.
  intros H E L. unfold_run. rewrite H, E, L. destruct f; reflexivity.
Qed.

Lemma run_not_dict v :
  stdin w = Document v ->
  is_dict v = false ->
  os_path_exists w (model_path w) = true ->
  load_models w (model_path w) = inr tt ->
  run w = outcome_of 1
            (generic_response (Exception "AttributeError"
               ("'" ++ type_name v ++ "' object has no attribute 'get'")))
            [Call_init; Call_load_models (model_path w)].
Proof.
  intros H D E L. unfold_run. rewrite H, E, L.
  destruct v as [| |[|]| | |]; try discriminate; reflexivity.
Qed.

Section Request.
Variable d : list (string * value).
Hypothesis Hstdin : stdin w = Document (VDict d).
Hypothesis Hexists : os_path_exists w (model_path w) = true.
Hypothesis Hload : load_models w (model_path w) = inr tt.

Ltac reach_predict P :=
  unfold_run; rewrite Hstdin, Hexists, Hload; cbn [get negb];
  change (predict w _ _) with (predict w (features_of d) (model_type_of d));
  rewrite P.

Lemma run_predict_failed f :
  predict w (features_of d) (model_type_of d) = inl f ->
  run w = outcome_of 1 (caught_response (exn_of_failure f)) (upto_predict w d).
Proof. intros P. reach_predict P. destruct f; reflexivity. Qed.

Section Predicted.
Variable predictions : list value.
Hypothesis Hpredict :
  predict w (features_of d) (model_type_of d) = inr predictions.

Ltac reach_test T :=
  reach_predict Hpredict;
  change (dict_get d "include_importance" (VBool false))
    with (include_importance_of d);
  rewrite T.

Lemma run_plain :
  truthy (include_importance_of d) = false ->
  json_dumps_error w (success_response predictions VNone) = None ->
  run w = outcome_of 0 (success_response predictions VNone) (upto_predict w d).
Proof. intros T J. reach_test T. cbn [fst snd]. rewrite J. reflexivity. Qed.

Lemma run_plain_refused cls msg :
  truthy (include_importance_of d) = false ->
  json_dumps_error w (success_response predictions VNone) = Some (cls, msg) ->
  run w = outcome_of 1 (generic_response (Exception cls msg)) (upto_predict w d).
Proof. intros T J. reach_test T. cbn [fst snd]. rewrite J. reflexivity. Qed.

Lemma run_importance_failed f :
  truthy (include_importance_of d) = true ->
  get_feature_importance w "random_forest" = inl f ->
  run w = outcome_of 1 (caught_response (exn_of_failure f)) (upto_importance w d).
Proof. intros T G. reach_test T. rewrite G. destruct f; reflexivity. Qed.

Lemma run_importance_overflow fi e :
  truthy (include_importance_of d) = true ->
  get_feature_importance w "random_forest" = inr fi ->
  importance_records fi = Raise e ->
  run w = outcome_of 1 (generic_response e) (upto_importance w d).
Proof.
  intros T G R. reach_test T. rewrite G, R.
  rewrite (importance_records_raise _ _ R). reflexivity.
Qed.

Lemma run_importance fi rs :
  truthy (include_importance_of d) = true ->
  get_feature_importance w "random_forest" = inr fi ->
  importance_records fi = Return rs ->
  json_dumps_error w (success_response predictions (VList rs)) = None ->
  run w = outcome_of 0 (success_response predictions (VList rs))
            (upto_importance w d).
Proof. intros T G R J. reach_test T. rewrite G, R, J. reflexivity. Qed.

Lemma run_importance_refused fi rs cls msg :
  truthy (include_importance_of d) = true ->
  get_feature_importance w "random_forest" = inr fi ->
  importance_records fi = Return rs ->
  json_dumps_error w (success_response predictions (VList rs))
    = Some (cls, msg) ->
  run w = outcome_of 1 (generic_response (Exception cls msg))
            (upto_importance w d).
Proof. intros T G R J. reach_test T. rewrite G, R, J. reflexivity. Qed.

End Predicted.
End Request.

(** Every run takes one of the paths. *)
Lemma run_path : path w (run w).
Proof.
  destruct (stdin w) as [description|v] eqn:Hstdin.
  { rewrite (run_malformed _ Hstdin). now apply Path_malformed. }
  destruct (os_path_exists w (model_path w)) eqn:Hexists.
  2: { rewrite (run_missing _ Hstdin Hexists). now apply Path_missing with v. }
  destruct (load_models w (model_path w)) as [f|[]] eqn:Hload.
  { rewrite (run_load_failed _ _ Hstdin Hexists Hload).
    now apply Path_load_failed with v. }
  destruct (is_dict v) eqn:Hdict.
  2: { rewrite (run_not_dict _ Hstdin Hdict Hexists Hload).
       now apply Path_not_dict. }
  destruct v as [| | | | |d]; try discriminate.
  destruct (predict w (features_of d) (model_type_of d))
    as [f|predictions] eqn:Hpredict.
  { rewrite (run_predict_failed _ Hstdin Hexists Hload _ Hpredict).
    now apply Path_predict_failed. }
  destruct (truthy (include_importance_of d)) eqn:Htest.
  2: { destruct (json_dumps_error w (success_response predictions VNone))
         as [[cls msg]|] eqn:Hj.
       - rewrite (run_plain_refused _ Hstdin Hexists Hload _ Hpredict _ _ Htest Hj).
         now apply Path_plain_refused with predictions.
       - rewrite (run_plain _ Hstdin Hexists Hload _ Hpredict Htest Hj).
         now apply Path_plain. }
  destruct (get_feature_importance w "random_forest") as [f|fi] eqn:Hfi.
  { rewrite (run_importance_failed _ Hstdin Hexists Hload _ Hpredict _ Htest Hfi).
    now apply Path_importance_failed with predictions. }
  destruct (importance_records fi) as [rs|e] eqn:Hrs.
  - destruct (json_dumps_error w (success_response predictions (VList rs)))
      as [[cls msg]|] eqn:Hj.
    + rewrite (run_importance_refused _ Hstdin Hexists Hload _ Hpredict
                 _ _ _ _ Htest Hfi Hrs Hj).
      now apply Path_importance_refused with predictions fi rs.
    + rewrite (run_importance _ Hstdin Hexists Hload _ Hpredict _ _ Htest Hfi Hrs Hj).
      now apply Path_importance with fi.
  - rewrite (run_importance_overflow _ Hstdin Hexists Hload _ Hpredict _ _ Htest Hfi Hrs).
    now apply Path_importance_overflow with predictions fi.
Qed.

End Run.

(** The example of the specification: all features present, the model
    loadable, no importances asked for. *)
Example sample_run :
  run (deployment (Document sample_request) true)
  = outcome_of 0 (success_response [rice; maize] VNone)
      [Call_init;
       Call_load_models "/var/www/html/ml/crop_ml_models.pkl";
       Call_predict
         [("N", VNum (Int 90)); ("P", VNum (Int 42)); ("K", VNum (Int 43));
          ("temperature", VNum (Float (S754_finite false 5854679515581645 (-48))));
          ("humidity", VNum (Int 82));
          ("ph", VNum (Float (S754_finite false 7318349394477056 (-50))));
          ("rainfall", VNum (Float (S754_finite false 7138909096824013 (-45))))]
         (VStr "ensemble")].
Proof. reflexivity. Qed.

Example sample_run_with_importance :
  output (run (deployment (Document xgboost_request) true))
  = [importance_response].
Proof. reflexivity. Qed.

Example sample_run_on_a_string :
  output (run (deployment (Document (VStr "rice")) true))
  = [VDict [("success", VBool false);
            ("error", VStr "'str' object has no attribute 'get'")]].
Proof. reflexivity. Qed.

Example float_of_one : float (Int 1) = Return (S754_finite false 4503599627370496 (-52)).
Proof. reflexivity. Qed.

Example float_of_largest :
  float (Int (2 ^ 1024 - 2 ^ 970 - 1))
  = Return (S754_finite false 9007199254740991 971).
Proof. reflexivity. Qed.

Example float_overflows :
  float (Int (2 ^ 1024 - 2 ^ 970))
  = Raise (Exception "OverflowError" "int too large to convert to float").
Proof. reflexivity. Qed.

(** A score too large for a float turns the whole run into an error. *)
Example importance_records_overflow :
  importance_records [("rainfall", Int 1); ("ph", Int (2 ^ 1024))]
  = Raise (Exception "OverflowError" "int too large to convert to float").
Proof. reflexivity. Qed.

(** Case analysis on the path of [run w]. *)
Ltac by_path w :=
  destruct (run_path w)
    as [description Hs
       |v Hs He
       |v f Hs He Hl
       |v Hs Hd He Hl
       |d0 f Hs He Hl Hp
       |d0 predictions Hs He Hl Hp Ht Hj
       |d0 predictions f Hs He Hl Hp Ht Hg
       |d0 predictions fi e Hs He Hl Hp Ht Hg Hr
       |d0 predictions fi rs Hs He Hl Hp Ht Hg Hr Hj
       |d0 predictions cls msg Hs He Hl Hp Ht Hj
       |d0 predictions fi rs cls msg Hs He Hl Hp Ht Hg Hr Hj];
  cbn [outcome_of exit_code output trace].

Lemma in_upto_predict w d c :
  In c (upto_predict w d) ->
  c = Call_init \/ c = Call_load_models (model_path w) \/
  c = Call_predict (features_of d) (model_type_of d).
Proof. intros [<-|[<-|[<-|[]]]]; auto. Qed.

Lemma in_upto_importance w d c :
  In c (upto_importance w d) ->
  In c (upto_predict w d) \/ c = Call_get_feature_importance "random_forest".
Proof.
  unfold upto_importance. rewrite in_app_iff. intros [H|[<-|[]]]; auto.
Qed.

(** A [predict] call in the trace carries the features and the model type
    read from the request. *)
Lemma predict_call w feats mt :
  In (Call_predict feats mt) (trace (run w)) ->
  exists d, stdin w = Document (VDict d) /\
            feats = features_of d /\ mt = model_type_of d.
Proof.
  assert (P : forall d, In (Call_predict feats mt) (upto_predict w d) ->
            feats = features_of d /\ mt = model_type_of d).
  { intros d H. apply in_upto_predict in H.
    destruct H as [H|[H|H]]; try discriminate H. injection H as -> ->. auto. }
  assert (Q : forall d, In (Call_predict feats mt) (upto_importance w d) ->
            feats = features_of d /\ mt = model_type_of d).
  { intros d H. apply in_upto_importance in H.
    destruct H as [H|H]; [auto | discriminate H]. }
  by_path w; intros H;
    try (exists d0; split; [exact Hs | auto]).
  - destruct H.
  - destruct H as [H|[]]; discriminate H.
  - destruct H as [H|[H|[]]]; discriminate H.
  - destruct H as [H|[H|[]]]; discriminate H.
Qed.

End Paths.

(** ** The contract of the bridge *)

Module Claims.
Import Py ApiBridge Paths.

Lemma lookup_features_of d k :
  In k feature_names ->
  lookup k (features_of d) = Some (dict_get d k (VNum (Int 0))).
Proof.
  unfold feature_names. simpl.
  intros [<-|[<-|[<-|[<-|[<-|[<-|[<-|[]]]]]]]]; reflexivity.
Qed.

Lemma success_of_caught e : field "success" (caught_response e) = Some (VBool false).
Proof. unfold caught_response. destruct (is_FileNotFoundError e); reflexivity. Qed.

Lemma error_of_caught e :
  exists msg, field "error" (caught_response e) = Some (VStr msg).
Proof.
  unfold caught_response.
  destruct (is_FileNotFoundError e); eexists; reflexivity.
Qed.

Lemma importance_of_caught e : field "feature_importance" (caught_response e) = None.
Proof. unfold caught_response. destruct (is_FileNotFoundError e); reflexivity. Qed.

Lemma caught_is_dict e : is_dict (caught_response e) = true.
Proof. unfold caught_response. destruct (is_FileNotFoundError e); reflexivity. Qed.

(** C1. When the model artifact does not exist, the one response printed
    has success = false, an error naming the path and the training hint as
    message; the exit code is 1 and the collaborator is neither asked to
    load nor to predict. *)
Theorem missing_model_reported (w : world) (v : value) :
  stdin w = Document v ->
  os_path_exists w (model_path w) = false ->
  exists doc,
    output (run w) = [doc] /\
    keys doc = ["success"; "error"; "message"] /\
    field "success" doc = Some (VBool false) /\
    field "error" doc
      = Some (VStr ("ML model file not found at " ++ model_path w)) /\
    field "message" doc
      = Some (VStr "Please train the models first: python ml/crop_recommendation_ml.py train") /\
    exit_code (run w) = 1 /\
    Forall (fun c => is_load c = false /\ is_predict c = false) (trace (run w)).
Proof.
  intros Hstdin Hexists. rewrite (run_missing w v Hstdin Hexists).
  eexists. repeat split. repeat constructor.
Qed.

Lemma missing_model_reported_witness :
  exists doc,
    output (run (deployment (Document sample_request) false)) = [doc] /\
    keys doc = ["success"; "error"; "message"] /\
    field "success" doc = Some (VBool false) /\
    field "error" doc
      = Some (VStr "ML model file not found at /var/www/html/ml/crop_ml_models.pkl") /\
    field "message" doc
      = Some (VStr "Please train the models first: python ml/crop_recommendation_ml.py train") /\
    exit_code (run (deployment (Document sample_request) false)) = 1 /\
    Forall (fun c => is_load c = false /\ is_predict c = false)
      (trace (run (deployment (Document sample_request) false))).
Proof.
  apply (missing_model_reported (deployment (Document sample_request) false)
           sample_request); reflexivity.
Defined.

(** C2. In a success response, top_recommendation is the first element of
    predictions when there is one and null when predictions is empty;
    predictions is what the predict delegate returned. *)
Theorem top_recommendation_is_first (w : world) (doc : value) :
  In doc (output (run w)) ->
  field "success" doc = Some (VBool true) ->
  exists d predictions,
    stdin w = Document (VDict d) /\
    predict w (features_of d) (model_type_of d) = inr predictions /\
    field "predictions" doc = Some (VList predictions) /\
    (predictions = [] -> field "top_recommendation" doc = Some VNone) /\
    (forall p0 rest, predictions = p0 :: rest ->
       field "top_recommendation" doc = Some p0).
Proof.
  by_path w; intros [<-|[]] Hsuccess;
    try (rewrite success_of_caught in Hsuccess);
    try discriminate Hsuccess;
    exists d0, predictions; repeat split; auto;
    try (intros ->; reflexivity); intros p0 rest ->; reflexivity.
Qed.

Lemma top_recommendation_is_first_witness :
  exists d predictions,
    stdin (deployment (Document sample_request) true) = Document (VDict d) /\
    predict (deployment (Document sample_request) true)
      (features_of d) (model_type_of d) = inr predictions /\
    field "predictions" (success_response [rice; maize] VNone)
      = Some (VList predictions) /\
    (predictions = [] ->
     field "top_recommendation" (success_response [rice; maize] VNone)
       = Some VNone) /\
    (forall p0 rest, predictions = p0 :: rest ->
       field "top_recommendation" (success_response [rice; maize] VNone)
         = Some p0).
Proof.
  apply (top_recommendation_is_first (deployment (Document sample_request) true)
           (success_response [rice; maize] VNone)).
  - left. reflexivity.
  - reflexivity.
Defined.

(** C3, as corrected. A feature key absent from the request reaches the
    predict delegate as 0; a key that is present reaches it with the
    request's value unchanged, whatever its shape. The empty request is
    forwarded as seven zeros with the model type "ensemble": reading its
    fields raises nothing. When the delegate answers it and json.dumps
    accepts the response, the success response is printed with exit code 0;
    when json.dumps raises on the response, the run prints that condition
    as a generic error and exits with 1. *)
Theorem features_default_when_absent (w : world) (d : list (string * value)) :
  stdin w = Document (VDict d) ->
  (forall feats mt, In (Call_predict feats mt) (trace (run w)) ->
     map fst feats = feature_names /\
     forall k, In k feature_names ->
       (lookup k d = None -> lookup k feats = Some (VNum (Int 0))) /\
       (forall v, lookup k d = Some v -> lookup k feats = Some v)) /\
  (os_path_exists w (model_path w) = true ->
   load_models w (model_path w) = inr tt ->
   exists feats mt, In (Call_predict feats mt) (trace (run w))) /\
  (d = [] ->
   os_path_exists w (model_path w) = true ->
   load_models w (model_path w) = inr tt ->
   let zeros := map (fun k => (k, VNum (Int 0))) feature_names in
   In (Call_predict zeros (VStr "ensemble")) (trace (run w)) /\
   (forall predictions,
      predict w zeros (VStr "ensemble") = inr predictions ->
      json_dumps_error w (success_response predictions VNone) = None ->
      exit_code (run w) = 0 /\
      output (run w) = [success_response predictions VNone]) /\
   (forall predictions cls msg,
      predict w zeros (VStr "ensemble") = inr predictions ->
      json_dumps_error w (success_response predictions VNone)
        = Some (cls, msg) ->
      exit_code (run w) = 1 /\
      output (run w)
        = [VDict [("success", VBool false); ("error", VStr msg)]])).
Proof.
  intros Hstdin.
  assert (Hreach : os_path_exists w (model_path w) = true ->
                   load_models w (model_path w) = inr tt ->
                   In (Call_predict (features_of d) (model_type_of d))
                     (trace (run w))).
  { intros Hexists Hload.
    assert (I : In (Call_predict (features_of d) (model_type_of d))
                  (upto_predict w d)) by (simpl; auto).
    assert (J : In (Call_predict (features_of d) (model_type_of d))
                  (upto_importance w d))
      by (unfold upto_importance; apply in_app_iff; auto).
    by_path w; rewrite Hstdin in Hs; try discriminate Hs;
      try (rewrite He in Hexists; discriminate Hexists);
      try (rewrite Hl in Hload; discriminate Hload);
      injection Hs as <-; try discriminate Hd; assumption. }
  split; [|split].
  - intros feats mt Hin.
    destruct (predict_call w feats mt Hin) as (d' & Hs' & -> & _).
    rewrite Hstdin in Hs'. injection Hs' as <-.
    split; [reflexivity|].
    intros k Hk. rewrite (lookup_features_of d k Hk). unfold dict_get.
    split; [intros ->; reflexivity | intros v ->; reflexivity].
  - intros Hexists Hload. eauto.
  - intros -> Hexists Hload zeros. split.
    + exact (Hreach Hexists Hload).
    + split.
      * intros predictions Hp Hj.
        rewrite (run_plain w [] Hstdin Hexists Hload predictions Hp eq_refl Hj).
        split; reflexivity.
      * intros predictions cls msg Hp Hj.
        rewrite (run_plain_refused w [] Hstdin Hexists Hload predictions Hp
                   cls msg eq_refl Hj).
        split; reflexivity.
Qed.

Lemma features_default_when_absent_witness :
  In (Call_predict (map (fun k => (k, VNum (Int 0))) feature_names)
        (VStr "ensemble"))
    (trace (run (deployment (Document empty_request) true))) /\
  exit_code (run (deployment (Document empty_request) true)) = 0 /\
  output (run (deployment (Document empty_request) true))
    = [success_response [rice; maize] VNone].
Proof.
  destruct (features_default_when_absent
              (deployment (Document empty_request) true) [] eq_refl)
    as (_ & _ & H).
  destruct (H eq_refl eq_refl eq_refl) as (Hin & Hok & _).
  split; [exact Hin|].
  apply (Hok [rice; maize]); reflexivity.
Defined.

(** C3, the claim as written fails: the request with N = "abc" reaches the
    predict delegate with N = "abc", not 0. *)
Lemma misshapen_feature_forwarded :
  stdin (deployment (Document misshapen_request) true)
    = Document (VDict [("N", VStr "abc")]) /\
  is_number (VStr "abc") = false /\
  exists feats mt,
    In (Call_predict feats mt)
      (trace (run (deployment (Document misshapen_request) true))) /\
    lookup "N" feats = Some (VStr "abc") /\
    lookup "N" feats <> Some (VNum (Int 0)) /\
    exit_code (run (deployment (Document misshapen_request) true)) = 0.
Proof.
  split; [reflexivity|]. split; [reflexivity|].
  exists (features_of [("N", VStr "abc")]), (VStr "ensemble").
  split; [|split; [|split]].
  - vm_compute. auto.
  - reflexivity.
  - discriminate.
  - reflexivity.
Qed.

(** C4, as corrected. The response carries a non-null feature_importance
    exactly when the request's include_importance value is truthy (true, a
    non-zero number, a non-empty string, array or object) and the run
    reached the success response, that is, no error occurred in any step,
    the importance step and the serialising of the response included;
    every other success response carries feature_importance = null. *)
Theorem feature_importance_iff_truthy (w : world) (doc : value) :
  In doc (output (run w)) ->
  ((exists x, field "feature_importance" doc = Some x /\ x <> VNone) <->
   (exists d, stdin w = Document (VDict d) /\
              truthy (dict_get d "include_importance" (VBool false)) = true /\
              field "success" doc = Some (VBool true))) /\
  (field "success" doc = Some (VBool true) ->
   (forall d, stdin w = Document (VDict d) ->
              truthy (dict_get d "include_importance" (VBool false)) = false) ->
   field "feature_importance" doc = Some VNone).
Proof.
  assert (A : forall d d' : list (string * value),
            stdin w = Document (VDict d) -> stdin w = Document (VDict d') ->
            d = d').
  { intros d d' H H'. rewrite H in H'. now injection H'. }
  assert (absent : forall doc',
            field "feature_importance" doc' = None ->
            field "success" doc' = Some (VBool false) ->
            ((exists x, field "feature_importance" doc' = Some x /\ x <> VNone) <->
             (exists d, stdin w = Document (VDict d) /\
                truthy (dict_get d "include_importance" (VBool false)) = true /\
                field "success" doc' = Some (VBool true))) /\
            (field "success" doc' = Some (VBool true) ->
             (forall d, stdin w = Document (VDict d) ->
                truthy (dict_get d "include_importance" (VBool false)) = false) ->
             field "feature_importance" doc' = Some VNone)).
  { intros doc' Hn Hf. rewrite Hn, Hf. split; [split|].
    - intros (x & E & _). discriminate E.
    - intros (d & _ & _ & E). discriminate E.
    - intros E. discriminate E. }
  by_path w; intros [<-|[]];
    try (apply absent;
         [first [reflexivity | apply importance_of_caught]
         |first [reflexivity | apply success_of_caught]]).
  - (* no importance requested *)
    split; [split|].
    + intros (x & E & N). injection E as <-. now destruct N.
    + intros (d & Hd & T & _). rewrite (A _ _ Hd Hs) in T.
      change (truthy (include_importance_of d0) = true) in T.
      rewrite Ht in T. discriminate T.
    + reflexivity.
  - (* importance delivered *)
    split; [split|].
    + intros _. exists d0. repeat split; auto.
    + intros _. eexists. split; [reflexivity | discriminate].
    + intros _ F. specialize (F d0 Hs).
      change (truthy (include_importance_of d0) = false) in F.
      rewrite Ht in F. discriminate F.
Qed.

Lemma feature_importance_iff_truthy_witness :
  ((exists x, field "feature_importance" importance_response = Some x /\
              x <> VNone) <->
   (exists d,
      stdin (deployment (Document xgboost_request) true) = Document (VDict d) /\
      truthy (dict_get d "include_importance" (VBool false)) = true /\
      field "success" importance_response = Some (VBool true))) /\
  (field "success" importance_response = Some (VBool true) ->
   (forall d,
      stdin (deployment (Document xgboost_request) true) = Document (VDict d) ->
      truthy (dict_get d "include_importance" (VBool false)) = false) ->
   field "feature_importance" importance_response = Some VNone).
Proof.
  apply (feature_importance_iff_truthy
           (deployment (Document xgboost_request) true) importance_response).
  left. reflexivity.
Defined.

(** C4, the claim as written fails: include_importance = 1 is not the
    boolean true, yet the response carries a non-null feature_importance. *)
Lemma numeric_flag_yields_importance :
  stdin (deployment (Document numeric_flag_request) true)
    = Document (VDict [("include_importance", VNum (Int 1))]) /\
  VNum (Int 1) <> VBool true /\
  exists doc x,
    output (run (deployment (Document numeric_flag_request) true)) = [doc] /\
    field "success" doc = Some (VBool true) /\
    field "feature_importance" doc = Some x /\
    x <> VNone.
Proof.
  split; [reflexivity|]. split; [discriminate|].
  eexists. eexists. split; [reflexivity|].
  split; [reflexivity|]. split; [reflexivity|]. discriminate.
Qed.

(** C5. The feature-importance delegate is only ever called with the
    model name "random_forest"; a request whose prediction used another
    model_type still has it called with "random_forest". *)
Theorem importance_model_is_fixed (w : world) :
  (forall name,
     In (Call_get_feature_importance name) (trace (run w)) ->
     name = "random_forest") /\
  (forall d predictions,
     stdin w = Document (VDict d) ->
     os_path_exists w (model_path w) = true ->
     load_models w (model_path w) = inr tt ->
     predict w (features_of d) (dict_get d "model_type" (VStr "ensemble"))
       = inr predictions ->
     truthy (dict_get d "include_importance" (VBool false)) = true ->
     trace (run w)
       = [Call_init; Call_load_models (model_path w);
          Call_predict (features_of d) (dict_get d "model_type" (VStr "ensemble"));
          Call_get_feature_importance "random_forest"]).
Proof.
  split.
  - assert (P : forall d name,
              In (Call_get_feature_importance name) (upto_importance w d) ->
              name = "random_forest").
    { intros d name H. apply in_upto_importance in H. destruct H as [H|H].
      - apply in_upto_predict in H. destruct H as [H|[H|H]]; discriminate H.
      - now injection H. }
    intros name. by_path w; intros H; try (exact (P _ _ H));
      try (apply in_upto_predict in H; destruct H as [H|[H|H]]; discriminate H).
    + destruct H.
    + destruct H as [H|[]]; discriminate H.
    + destruct H as [H|[H|[]]]; discriminate H.
    + destruct H as [H|[H|[]]]; discriminate H.
  - intros d predictions Hstdin Hexists Hload Hpredict Htest.
    destruct (get_feature_importance w "random_forest") as [f|fi] eqn:Hg.
    { now rewrite (run_importance_failed w d Hstdin Hexists Hload
                     predictions Hpredict f Htest Hg). }
    destruct (importance_records fi) as [rs|e] eqn:Hr.
    + destruct (json_dumps_error w (success_response predictions (VList rs)))
        as [[cls msg]|] eqn:Hj.
      * now rewrite (run_importance_refused w d Hstdin Hexists Hload
                       predictions Hpredict fi rs cls msg Htest Hg Hr Hj).
      * now rewrite (run_importance w d Hstdin Hexists Hload
                       predictions Hpredict fi rs Htest Hg Hr Hj).
    + now rewrite (run_importance_overflow w d Hstdin Hexists Hload
                     predictions Hpredict fi e Htest Hg Hr).
Qed.

Lemma importance_model_is_fixed_witness :
  trace (run (deployment (Document xgboost_request) true))
    = [Call_init;
       Call_load_models (model_path (deployment (Document xgboost_request) true));
       Call_predict
         (features_of [("model_type", VStr "xgboost");
                       ("include_importance", VBool true)])
         (VStr "xgboost");
       Call_get_feature_importance "random_forest"].
Proof.
  apply (proj2 (importance_model_is_fixed
                  (deployment (Document xgboost_request) true))
           [("model_type", VStr "xgboost"); ("include_importance", VBool true)]
           [rice; maize]);
    reflexivity.
Defined.

(** C6. A stream that is not JSON yields one response with success = false
    and the decoder's description as error, without a message field, and
    exit code 1. *)
Theorem malformed_input_reported (w : world) (description : string) :
  stdin w = Malformed description ->
  output (run w)
    = [VDict [("success", VBool false); ("error", VStr description)]] /\
  (forall doc, In doc (output (run w)) -> field "message" doc = None) /\
  exit_code (run w) = 1.
Proof.
  intros Hstdin. rewrite (run_malformed w description Hstdin).
  split; [reflexivity|]. split; [|reflexivity].
  intros doc [<-|[]]. reflexivity.
Qed.

Lemma malformed_input_reported_witness :
  output (run (deployment (Malformed "Expecting value: line 1 column 1 (char 0)") true))
    = [VDict [("success", VBool false);
              ("error", VStr "Expecting value: line 1 column 1 (char 0)")]] /\
  (forall doc,
     In doc (output (run (deployment
                            (Malformed "Expecting value: line 1 column 1 (char 0)")
                            true))) ->
     field "message" doc = None) /\
  exit_code (run (deployment (Malformed "Expecting value: line 1 column 1 (char 0)") true))
    = 1.
Proof.
  apply (malformed_input_reported
           (deployment (Malformed "Expecting value: line 1 column 1 (char 0)") true)).
  reflexivity.
Defined.

(** C7. When the load delegate raises FileNotFoundError although the
    artifact passed the existence check, the response has success = false,
    the fixed error about untrained models and the retraining hint as
    message, and the exit code is 1. *)
Theorem load_not_found_reported (w : world) (v : value) (msg : string) :
  stdin w = Document v ->
  os_path_exists w (model_path w) = true ->
  load_models w (model_path w) = inl (NotFound msg) ->
  output (run w)
    = [VDict [("success", VBool false);
              ("error", VStr "ML models not trained. Please run training script first.");
              ("message", VStr "Run: python ml/crop_recommendation_ml.py train")]] /\
  exit_code (run w) = 1.
Proof.
  intros Hstdin Hexists Hload.
  rewrite (run_load_failed w v (NotFound msg) Hstdin Hexists Hload).
  split; reflexivity.
Qed.

Lemma load_not_found_reported_witness :
  output (run (racing_deployment (Document sample_request)))
    = [VDict [("success", VBool false);
              ("error", VStr "ML models not trained. Please run training script first.");
              ("message", VStr "Run: python ml/crop_recommendation_ml.py train")]] /\
  exit_code (run (racing_deployment (Document sample_request))) = 1.
Proof.
  apply (load_not_found_reported (racing_deployment (Document sample_request))
           sample_request
           "[Errno 2] No such file or directory: '/var/www/html/ml/crop_ml_models.pkl'");
    reflexivity.
Defined.

(** C8. Whatever the input, the file system and the delegates do, a run
    prints exactly one document, a JSON object; no run prints an error
    document and another document. *)
Theorem one_document_per_run (w : world) :
  length (output (run w)) = 1%nat /\
  exists doc, output (run w) = [doc] /\ is_dict doc = true.
Proof.
  by_path w; (split; [reflexivity|]); eexists; (split; [reflexivity|]);
    first [reflexivity | apply caught_is_dict].
Qed.

(** C9. The exit code is 0 exactly when the response printed is the
    success response, and 1 exactly when it is an error response; every
    error path (malformed input, model file absent, a condition raised by
    load, predict or the importance step) ends with exit code 1. *)
Theorem exit_code_tells_success (w : world) :
  (exists doc,
     output (run w) = [doc] /\
     (exit_code (run w) = 0 <-> field "success" doc = Some (VBool true)) /\
     (exit_code (run w) = 1 <-> field "success" doc = Some (VBool false))) /\
  (forall description, stdin w = Malformed description -> exit_code (run w) = 1) /\
  (forall v, stdin w = Document v ->
     os_path_exists w (model_path w) = false -> exit_code (run w) = 1) /\
  (forall v f, stdin w = Document v ->
     os_path_exists w (model_path w) = true ->
     load_models w (model_path w) = inl f -> exit_code (run w) = 1) /\
  (forall d f, stdin w = Document (VDict d) ->
     os_path_exists w (model_path w) = true ->
     load_models w (model_path w) = inr tt ->
     predict w (features_of d) (model_type_of d) = inl f ->
     exit_code (run w) = 1) /\
  (forall d predictions, stdin w = Document (VDict d) ->
     os_path_exists w (model_path w) = true ->
     load_models w (model_path w) = inr tt ->
     predict w (features_of d) (model_type_of d) = inr predictions ->
     truthy (include_importance_of d) = true ->
     (forall f, get_feature_importance w "random_forest" = inl f ->
        exit_code (run w) = 1) /\
     (forall fi e, get_feature_importance w "random_forest" = inr fi ->
        importance_records fi = Raise e -> exit_code (run w) = 1)).
Proof.
  split; [|split; [|split; [|split; [|split]]]].
  - by_path w; eexists; (split; [reflexivity|]);
      rewrite ?success_of_caught; cbn [field lookup generic_response
        missing_response success_response String.eqb Ascii.eqb Bool.eqb];
      (split; split; intros E; first [reflexivity | discriminate E]).
  - intros description Hs. now rewrite (run_malformed w _ Hs).
  - intros v Hs He. now rewrite (run_missing w v Hs He).
  - intros v f Hs He Hl. now rewrite (run_load_failed w v f Hs He Hl).
  - intros d f Hs He Hl Hp. now rewrite (run_predict_failed w d Hs He Hl f Hp).
  - intros d predictions Hs He Hl Hp Ht. split.
    + intros f Hg.
      now rewrite (run_importance_failed w d Hs He Hl predictions Hp f Ht Hg).
    + intros fi e Hg Hr.
      now rewrite (run_importance_overflow w d Hs He Hl predictions Hp fi e Ht Hg Hr).
Qed.

(** C10, as corrected. A JSON document that is not an object never gets a
    success response: the run prints one response with success = false and
    an error field, exits with code 1 and never calls predict. When the
    model artifact exists and the load delegate returns, field extraction
    fails and the generic handler prints the response, whose error is the
    description of the missing get attribute. When the artifact is absent
    or the load delegate raises, the response is that earlier path's,
    printed before any field is read. *)
Theorem non_object_request_rejected (w : world) (v : value) :
  stdin w = Document v ->
  is_dict v = false ->
  exit_code (run w) = 1 /\
  (exists doc msg,
     output (run w) = [doc] /\
     field "success" doc = Some (VBool false) /\
     field "error" doc = Some (VStr msg)) /\
  Forall (fun c => is_predict c = false) (trace (run w)) /\
  (os_path_exists w (model_path w) = true ->
   load_models w (model_path w) = inr tt ->
   output (run w)
     = [VDict [("success", VBool false);
               ("error", VStr ("'" ++ type_name v
                                 ++ "' object has no attribute 'get'"))]]) /\
  (os_path_exists w (model_path w) = false ->
   output (run w)
     = [VDict [("success", VBool false);
               ("error", VStr ("ML model file not found at " ++ model_path w));
               ("message", VStr "Please train the models first: python ml/crop_recommendation_ml.py train")]] /\
   trace (run w) = [Call_init]) /\
  (forall msg,
     os_path_exists w (model_path w) = true ->
     load_models w (model_path w) = inl (NotFound msg) ->
     output (run w)
       = [VDict [("success", VBool false);
                 ("error", VStr "ML models not trained. Please run training script first.");
                 ("message", VStr "Run: python ml/crop_recommendation_ml.py train")]]) /\
  (forall cls msg,
     os_path_exists w (model_path w) = true ->
     load_models w (model_path w) = inl (Failed cls msg) ->
     output (run w) = [VDict [("success", VBool false); ("error", VStr msg)]]).
Proof.
  intros Hstdin Hdict.
  assert (Early :
    (os_path_exists w (model_path w) = false ->
     output (run w)
       = [VDict [("success", VBool false);
                 ("error", VStr ("ML model file not found at " ++ model_path w));
                 ("message", VStr "Please train the models first: python ml/crop_recommendation_ml.py train")]] /\
     trace (run w) = [Call_init]) /\
    (forall msg,
       os_path_exists w (model_path w) = true ->
       load_models w (model_path w) = inl (NotFound msg) ->
       output (run w)
         = [VDict [("success", VBool false);
                   ("error", VStr "ML models not trained. Please run training script first.");
                   ("message", VStr "Run: python ml/crop_recommendation_ml.py train")]]) /\
    (forall cls msg,
       os_path_exists w (model_path w) = true ->
       load_models w (model_path w) = inl (Failed cls msg) ->
       output (run w) = [VDict [("success", VBool false); ("error", VStr msg)]])).
  { split; [|split].
    - intros He. rewrite (run_missing w v Hstdin He). split; reflexivity.
    - intros msg He Hl. now rewrite (run_load_failed w v _ Hstdin He Hl).
    - intros cls msg He Hl. now rewrite (run_load_failed w v _ Hstdin He Hl). }
  revert Early.
  destruct (os_path_exists w (model_path w)) eqn:Hexists.
  2: { rewrite (run_missing w v Hstdin Hexists). intros Early.
       split; [reflexivity|]. split; [|split; [|split; [|exact Early]]].
       - eexists. eexists. repeat split.
       - repeat constructor.
       - discriminate. }
  destruct (load_models w (model_path w)) as [f|[]] eqn:Hload.
  { rewrite (run_load_failed w v f Hstdin Hexists Hload). intros Early.
    split; [reflexivity|]. split; [|split; [|split; [|exact Early]]].
    - destruct (error_of_caught (exn_of_failure f)) as [msg E].
      eexists. exists msg. split; [reflexivity|]. split; [|exact E].
      apply success_of_caught.
    - repeat constructor.
    - discriminate. }
  rewrite (run_not_dict w v Hstdin Hdict Hexists Hload). intros Early.
  split; [reflexivity|]. split; [|split; [|split; [|exact Early]]].
  - eexists. eexists. repeat split.
  - repeat constructor.
  - reflexivity.
Qed.

Lemma non_object_request_rejected_witness :
  exit_code (run (deployment (Document (VList [])) true)) = 1 /\
  (exists doc msg,
     output (run (deployment (Document (VList [])) true)) = [doc] /\
     field "success" doc = Some (VBool false) /\
     field "error" doc = Some (VStr msg)) /\
  Forall (fun c => is_predict c = false)
    (trace (run (deployment (Document (VList [])) true))) /\
  (os_path_exists (deployment (Document (VList [])) true)
     (model_path (deployment (Document (VList [])) true)) = true ->
   load_models (deployment (Document (VList [])) true)
     (model_path (deployment (Document (VList [])) true)) = inr tt ->
   output (run (deployment (Document (VList [])) true))
     = [VDict [("success", VBool false);
               ("error", VStr "'list' object has no attribute 'get'")]]).
Proof.
  destruct (non_object_request_rejected
              (deployment (Document (VList [])) true) (VList [])
              eq_refl eq_refl)
    as (A & B & C & D & _).
  exact (conj A (conj B (conj C D))).
Defined.

(** C10, the claim as written fails: with the model artifact absent, a
    request that is a list is answered by the existence check, with its
    training hint, before any field is extracted; the generic handler
    prints nothing. *)
Lemma non_object_meets_missing_model :
  stdin (deployment (Document (VList [])) false) = Document (VList []) /\
  is_dict (VList []) = false /\
  output (run (deployment (Document (VList [])) false))
    = [missing_response "/var/www/html/ml/crop_ml_models.pkl"] /\
  trace (run (deployment (Document (VList [])) false)) = [Call_init] /\
  (forall e, output (run (deployment (Document (VList [])) false))
             <> [generic_response e]).
Proof.
  repeat split. intros e H. discriminate H.
Qed.

End Claims.

(** ** Further properties of [main] *)

Module Extras.
Import Py ApiBridge Paths.

(** Membership in a short explicit list, case by case. *)
Ltac in_cases H :=
  unfold upto_importance, upto_predict in H; simpl in H;
  repeat (destruct H as [H|H]; [try discriminate H|]);
  try contradiction.

Ltac clash :=
  match goal with
  | H : ?x = _, H' : ?x = _ |- _ => rewrite H in H'; discriminate H'
  end.

(** X1. The collaborator is used in a fixed order and each operation at
    most once: the calls of a run are an initial part of construction,
    load, predict, importance. *)
Theorem calls_in_order (w : world) :
  trace (run w) = [] \/
  trace (run w) = [Call_init] \/
  trace (run w) = [Call_init; Call_load_models (model_path w)] \/
  exists d,
    stdin w = Document (VDict d) /\
    (trace (run w)
       = [Call_init; Call_load_models (model_path w);
          Call_predict (features_of d) (dict_get d "model_type" (VStr "ensemble"))] \/
     trace (run w)
       = [Call_init; Call_load_models (model_path w);
          Call_predict (features_of d) (dict_get d "model_type" (VStr "ensemble"));
          Call_get_feature_importance "random_forest"]).
Proof.
  by_path w; auto;
    do 3 right; exists d0; (split; [exact Hs|]); auto.
Qed.

(** X2. The load delegate is called exactly when the input parsed and the
    artifact exists, whatever the shape of the request, and always with the
    path of crop_ml_models.pkl beside the script. *)
Theorem load_called_iff (w : world) (path : string) :
  In (Call_load_models path) (trace (run w)) <->
  path = os_path_join (script_dir w) "crop_ml_models.pkl" /\
  (exists v, stdin w = Document v) /\
  os_path_exists w (os_path_join (script_dir w) "crop_ml_models.pkl") = true.
Proof.
  change (os_path_join (script_dir w) "crop_ml_models.pkl") with (model_path w).
  by_path w; (split; [intros H | intros (-> & (v' & Hv') & He')]);
    try (in_cases H; injection H as <-; repeat split; eauto);
    try clash;
    try (unfold upto_importance, upto_predict; simpl; auto).
Qed.

Lemma load_called_iff_witness :
  In (Call_load_models "/var/www/html/ml/crop_ml_models.pkl")
    (trace (run (deployment (Document (VList [])) true))).
Proof.
  apply (proj2 (load_called_iff (deployment (Document (VList [])) true)
                  "/var/www/html/ml/crop_ml_models.pkl")).
  split; [reflexivity|]. split; [|reflexivity].
  exists (VList []). reflexivity.
Defined.

Ltac same_request Hs Hreq :=
  rewrite Hs in Hreq;
  first [discriminate Hreq | injection Hreq as <- | injection Hreq as ->].

Ltac settle :=
  unfold model_type_of, include_importance_of in *;
  first [clash | discriminate
        | unfold upto_importance, upto_predict; simpl; now auto].

(** X3. The predict delegate is called exactly when the request is an
    object, the artifact exists and the load returned; it then receives the
    seven features and the request's model_type, "ensemble" when the key is
    missing. *)
Theorem predict_called_iff (w : world) (feats : list (string * value))
  (mt : value) :
  In (Call_predict feats mt) (trace (run w)) <->
  exists d,
    stdin w = Document (VDict d) /\
    os_path_exists w (model_path w) = true /\
    load_models w (model_path w) = inr tt /\
    feats = [("N", dict_get d "N" (VNum (Int 0)));
             ("P", dict_get d "P" (VNum (Int 0)));
             ("K", dict_get d "K" (VNum (Int 0)));
             ("temperature", dict_get d "temperature" (VNum (Int 0)));
             ("humidity", dict_get d "humidity" (VNum (Int 0)));
             ("ph", dict_get d "ph" (VNum (Int 0)));
             ("rainfall", dict_get d "rainfall" (VNum (Int 0)))] /\
    mt = dict_get d "model_type" (VStr "ensemble").
Proof.
  by_path w;
    (split; [intros H | intros (d & Hreq & He' & Hl' & -> & ->)]);
    try (in_cases H; injection H as <- <-; exists d0; repeat split; assumption);
    try (same_request Hs Hreq; settle).
Qed.

Lemma predict_called_iff_witness :
  In (Call_predict
        [("N", VNum (Int 0)); ("P", VNum (Int 0)); ("K", VNum (Int 0));
         ("temperature", VNum (Int 0)); ("humidity", VNum (Int 0));
         ("ph", VNum (Int 0)); ("rainfall", VNum (Int 0))]
        (VStr "xgboost"))
    (trace (run (deployment (Document xgboost_request) true))).
Proof.
  apply (proj2 (predict_called_iff (deployment (Document xgboost_request) true)
                  _ (VStr "xgboost"))).
  exists [("model_type", VStr "xgboost"); ("include_importance", VBool true)].
  repeat split.
Defined.

(** X4. The importance delegate is called exactly when predict returned
    and the request's include_importance value is truthy; a failed predict
    or a falsy or missing flag means no call. *)
Theorem importance_called_iff (w : world) (name : string) :
  In (Call_get_feature_importance name) (trace (run w)) <->
  name = "random_forest" /\
  exists d predictions,
    stdin w = Document (VDict d) /\
    os_path_exists w (model_path w) = true /\
    load_models w (model_path w) = inr tt /\
    predict w (features_of d) (dict_get d "model_type" (VStr "ensemble"))
      = inr predictions /\
    truthy (dict_get d "include_importance" (VBool false)) = true.
Proof.
  by_path w;
    (split; [intros H; in_cases H; injection H as <-
            | intros (-> & d & ps & Hreq & He' & Hl' & Hp' & Ht')]);
    try (same_request Hs Hreq; settle);
    (split; [reflexivity|]); exists d0, predictions; repeat split; assumption.
Qed.

Lemma importance_called_iff_witness :
  In (Call_get_feature_importance "random_forest")
    (trace (run (deployment (Document numeric_flag_request) true))).
Proof.
  apply (proj2 (importance_called_iff
                  (deployment (Document numeric_flag_request) true)
                  "random_forest")).
  split; [reflexivity|].
  exists [("include_importance", VNum (Int 1))], [rice; maize].
  repeat split.
Defined.

(** X5. The FileNotFoundError clause guards the whole body: when predict
    or the importance delegate raises FileNotFoundError, the run prints the
    same "models not trained" response as for a failed load, and exits
    with 1. *)
Theorem not_found_after_load_reported (w : world) (d : list (string * value))
  (msg : string) :
  stdin w = Document (VDict d) ->
  os_path_exists w (model_path w) = true ->
  load_models w (model_path w) = inr tt ->
  predict w (features_of d) (dict_get d "model_type" (VStr "ensemble"))
    = inl (NotFound msg) \/
  (exists predictions,
     predict w (features_of d) (dict_get d "model_type" (VStr "ensemble"))
       = inr predictions /\
     truthy (dict_get d "include_importance" (VBool false)) = true /\
     get_feature_importance w "random_forest" = inl (NotFound msg)) ->
  output (run w)
    = [VDict [("success", VBool false);
              ("error", VStr "ML models not trained. Please run training script first.");
              ("message", VStr "Run: python ml/crop_recommendation_ml.py train")]] /\
  exit_code (run w) = 1.
Proof.
  intros Hs He Hl [Hp|(predictions & Hp & Ht & Hg)].
  - rewrite (run_predict_failed w d Hs He Hl _ Hp). split; reflexivity.
  - rewrite (run_importance_failed w d Hs He Hl predictions Hp _ Ht Hg).
    split; reflexivity.
Qed.

Lemma not_found_after_load_reported_witness :
  output (run (staged (Document sample_request) (inr tt)
                 (inl (NotFound "[Errno 2] No such file or directory: 'scaler.pkl'"))
                 (inr [])))
    = [VDict [("success", VBool false);
              ("error", VStr "ML models not trained. Please run training script first.");
              ("message", VStr "Run: python ml/crop_recommendation_ml.py train")]] /\
  exit_code (run (staged (Document sample_request) (inr tt)
                    (inl (NotFound "[Errno 2] No such file or directory: 'scaler.pkl'"))
                    (inr [])))
    = 1.
Proof.
  eapply (not_found_after_load_reported
            (staged (Document sample_request) (inr tt)
               (inl (NotFound "[Errno 2] No such file or directory: 'scaler.pkl'"))
               (inr []))).
  - reflexivity.
  - reflexivity.
  - reflexivity.
  - left. reflexivity.
Defined.

(** X6. A condition other than FileNotFoundError raised by load, predict
    or the importance delegate is reported as success = false with its text
    as error and nothing else: neither a message nor the class of the
    condition; the exit code is 1. *)
Theorem delegate_failure_reported (w : world) (v : value) (cls msg : string) :
  stdin w = Document v ->
  os_path_exists w (model_path w) = true ->
  load_models w (model_path w) = inl (Failed cls msg) \/
  (exists d,
     v = VDict d /\
     load_models w (model_path w) = inr tt /\
     (predict w (features_of d) (dict_get d "model_type" (VStr "ensemble"))
        = inl (Failed cls msg) \/
      exists predictions,
        predict w (features_of d) (dict_get d "model_type" (VStr "ensemble"))
          = inr predictions /\
        truthy (dict_get d "include_importance" (VBool false)) = true /\
        get_feature_importance w "random_forest" = inl (Failed cls msg))) ->
  output (run w) = [VDict [("success", VBool false); ("error", VStr msg)]] /\
  exit_code (run w) = 1.
Proof.
  intros Hs He [Hl|(d & -> & Hl & [Hp|(predictions & Hp & Ht & Hg)])].
  - rewrite (run_load_failed w v _ Hs He Hl). split; reflexivity.
  - rewrite (run_predict_failed w d Hs He Hl _ Hp). split; reflexivity.
  - rewrite (run_importance_failed w d Hs He Hl predictions Hp _ Ht Hg).
    split; reflexivity.
Qed.

Lemma delegate_failure_reported_witness :
  output (run (staged (Document xgboost_request) (inr tt) (inr [rice])
                 (inl (Failed "ValueError" "Model random_forest not found"))))
    = [VDict [("success", VBool false);
              ("error", VStr "Model random_forest not found")]] /\
  exit_code (run (staged (Document xgboost_request) (inr tt) (inr [rice])
                    (inl (Failed "ValueError" "Model random_forest not found"))))
    = 1.
Proof.
  eapply (delegate_failure_reported
            (staged (Document xgboost_request) (inr tt) (inr [rice])
               (inl (Failed "ValueError" "Model random_forest not found")))
            xgboost_request "ValueError").
  - reflexivity.
  - reflexivity.
  - right.
    exists [("model_type", VStr "xgboost"); ("include_importance", VBool true)].
    split; [reflexivity|]. split; [reflexivity|].
    right. exists [rice]. repeat split.
Defined.

(** X7. The response has one of three shapes, told apart by its keys: the
    success response with success, predictions, top_recommendation and
    feature_importance; an error with success, error and message; an error
    with success and error only. The error of an error response is a
    string. *)
Theorem response_schema (w : world) :
  exists doc,
    output (run w) = [doc] /\
    ((keys doc = ["success"; "predictions"; "top_recommendation";
                  "feature_importance"] /\
      field "success" doc = Some (VBool true) /\
      exists predictions, field "predictions" doc = Some (VList predictions)) \/
     ((keys doc = ["success"; "error"; "message"] \/
       keys doc = ["success"; "error"]) /\
      field "success" doc = Some (VBool false) /\
      exists text, field "error" doc = Some (VStr text))).
Proof.
  assert (C : forall e,
            (keys (caught_response e) = ["success"; "error"; "message"] \/
             keys (caught_response e) = ["success"; "error"]) /\
            field "success" (caught_response e) = Some (VBool false) /\
            exists text, field "error" (caught_response e) = Some (VStr text)).
  { intros e. unfold caught_response.
    destruct (is_FileNotFoundError e);
      (split; [first [left; reflexivity | right; reflexivity]|]);
      (split; [reflexivity|]); eexists; reflexivity. }
  by_path w; eexists; (split; [reflexivity|]);
    first [ right; apply C
          | left; split; [reflexivity|]; split; [reflexivity|];
            eexists; reflexivity
          | right; split; [left; reflexivity|]; split; [reflexivity|];
            eexists; reflexivity
          | right; split; [right; reflexivity|]; split; [reflexivity|];
            eexists; reflexivity ].
Qed.

(** X8. A run depends on the request only through the nine keys main
    reads: requests that agree on them, whatever else they hold and in
    whatever order, give the same output, exit code and collaborator
    calls. *)
Theorem unread_keys_ignored (w : world) (d1 d2 : list (string * value)) :
  (forall k, In k request_keys -> lookup k d1 = lookup k d2) ->
  run (with_stdin w (Document (VDict d1)))
  = run (with_stdin w (Document (VDict d2))).
Proof.
  intros Hk.
  assert (G : forall k default, In k request_keys ->
            dict_get d1 k default = dict_get d2 k default).
  { intros k default H. unfold dict_get. now rewrite (Hk k H). }
  assert (F : features_of d1 = features_of d2).
  { unfold features_of, feature_names. simpl.
    rewrite !(G _ (VNum (Int 0))); [reflexivity | | | | | | |];
      unfold request_keys, feature_names; simpl; tauto. }
  assert (T : model_type_of d1 = model_type_of d2).
  { apply G. unfold request_keys, feature_names. simpl. tauto. }
  assert (I : include_importance_of d1 = include_importance_of d2).
  { apply G. unfold request_keys, feature_names. simpl. tauto. }
  set (w1 := with_stdin w (Document (VDict d1))).
  set (w2 := with_stdin w (Document (VDict d2))).
  assert (U : upto_predict w1 d1 = upto_predict w2 d2).
  { unfold upto_predict. now rewrite F, T. }
  assert (V : upto_importance w1 d1 = upto_importance w2 d2).
  { unfold upto_importance. now rewrite U. }
  destruct (os_path_exists w (model_path w)) eqn:He.
  2: { now rewrite (run_missing w1 _ eq_refl He), (run_missing w2 _ eq_refl He). }
  destruct (load_models w (model_path w)) as [f|[]] eqn:Hl.
  { now rewrite (run_load_failed w1 _ f eq_refl He Hl),
      (run_load_failed w2 _ f eq_refl He Hl). }
  destruct (predict w (features_of d1) (model_type_of d1)) as [f|ps] eqn:Hp1;
    pose proof Hp1 as Hp2; rewrite F, T in Hp2.
  { now rewrite (run_predict_failed w1 d1 eq_refl He Hl f Hp1),
      (run_predict_failed w2 d2 eq_refl He Hl f Hp2), U. }
  destruct (truthy (include_importance_of d1)) eqn:Ht1;
    pose proof Ht1 as Ht2; rewrite I in Ht2.
  2: { destruct (json_dumps_error w (success_response ps VNone))
         as [[cls msg]|] eqn:Hj.
       - now rewrite (run_plain_refused w1 d1 eq_refl He Hl ps Hp1 cls msg Ht1 Hj),
           (run_plain_refused w2 d2 eq_refl He Hl ps Hp2 cls msg Ht2 Hj), U.
       - now rewrite (run_plain w1 d1 eq_refl He Hl ps Hp1 Ht1 Hj),
           (run_plain w2 d2 eq_refl He Hl ps Hp2 Ht2 Hj), U. }
  destruct (get_feature_importance w "random_forest") as [f|fi] eqn:Hg.
  { now rewrite (run_importance_failed w1 d1 eq_refl He Hl ps Hp1 f Ht1 Hg),
      (run_importance_failed w2 d2 eq_refl He Hl ps Hp2 f Ht2 Hg), V. }
  destruct (importance_records fi) as [rs|e] eqn:Hr.
  - destruct (json_dumps_error w (success_response ps (VList rs)))
      as [[cls msg]|] eqn:Hj.
    + now rewrite (run_importance_refused w1 d1 eq_refl He Hl ps Hp1 fi rs
                     cls msg Ht1 Hg Hr Hj),
        (run_importance_refused w2 d2 eq_refl He Hl ps Hp2 fi rs
           cls msg Ht2 Hg Hr Hj), V.
    + now rewrite (run_importance w1 d1 eq_refl He Hl ps Hp1 fi rs Ht1 Hg Hr Hj),
        (run_importance w2 d2 eq_refl He Hl ps Hp2 fi rs Ht2 Hg Hr Hj), V.
  - now rewrite (run_importance_overflow w1 d1 eq_refl He Hl ps Hp1 fi e Ht1 Hg Hr),
      (run_importance_overflow w2 d2 eq_refl He Hl ps Hp2 fi e Ht2 Hg Hr), V.
Qed.

Lemma unread_keys_ignored_witness :
  run (with_stdin (deployment (Malformed "") true) (Document noisy_request))
  = run (with_stdin (deployment (Malformed "") true) (Document quiet_request)).
Proof.
  apply (unread_keys_ignored (deployment (Malformed "") true)
           [("farm", VStr "north field"); ("N", VNum (Int 90));
            ("include_importance", VBool true)]
           [("include_importance", VBool true); ("N", VNum (Int 90))]).
  intros k H. unfold request_keys, feature_names in H. simpl in H.
  destruct H as [<-|[<-|[<-|[<-|[<-|[<-|[<-|[<-|[<-|[]]]]]]]]]]; reflexivity.
Defined.

(** X9. When the comprehension of lines 61-62 completes, it yields one
    record per pair of the delegate's answer, in the same order, holding the
    pair's name and its score converted by float; a score that is already a
    float is carried over unchanged. *)
Theorem importance_records_shape (fi : list (string * number))
  (rs : list value) :
  importance_records fi = Return rs ->
  length rs = length fi /\
  (forall i name score,
     nth_error fi i = Some (name, score) ->
     exists x,
       float score = Return x /\
       nth_error rs i
         = Some (VDict [("feature", VStr name);
                        ("importance", VNum (Float x))])) /\
  (forall i name f,
     nth_error fi i = Some (name, Float f) ->
     nth_error rs i
       = Some (VDict [("feature", VStr name); ("importance", VNum (Float f))])).
Proof.
  revert rs. induction fi as [|[name0 score0] fi IH]; intros rs; simpl.
  - intros E. injection E as <-. split; [reflexivity|].
    split; intros [|i]; discriminate.
  - destruct (float score0) as [x0|e0] eqn:Hx; [|discriminate].
    destruct (importance_records fi) as [rs'|e'] eqn:Hrs; [|discriminate].
    intros E. injection E as <-.
    destruct (IH rs' eq_refl) as (L & A & B).
    split; [simpl; now rewrite L|]. split.
    + intros [|i] name score; simpl.
      * intros E. injection E as <- <-. exists x0. split; [exact Hx|reflexivity].
      * apply A.
    + intros [|i] name f; simpl.
      * intros E. injection E as <- ->. simpl in Hx. injection Hx as <-.
        reflexivity.
      * apply B.
Qed.

Lemma importance_records_shape_witness :
  length [VDict [("feature", VStr "rainfall");
                 ("importance",
                   VNum (Float (S754_finite false 6305039478318694 (-54))))];
          VDict [("feature", VStr "humidity");
                 ("importance",
                   VNum (Float (S754_finite false 4503599627370496 (-52))))]]
  = length [("rainfall", Float (S754_finite false 6305039478318694 (-54)));
            ("humidity", Int 1)].
Proof.
  apply (importance_records_shape
           [("rainfall", Float (S754_finite false 6305039478318694 (-54)));
            ("humidity", Int 1)]).
  reflexivity.
Defined.

(** X10. The comprehension completes exactly when float accepts every
    score; the only condition it raises is the OverflowError of an integer
    too large for a float. *)
Theorem importance_records_returns_iff (fi : list (string * number)) :
  ((exists rs, importance_records fi = Return rs) <->
   (forall name score, In (name, score) fi ->
      exists x, float score = Return x)) /\
  (forall e, importance_records fi = Raise e ->
     e = Exception "OverflowError" "int too large to convert to float" /\
     exists name z, In (name, Int z) fi /\ float (Int z) = Raise e).
Proof.
  induction fi as [|[name0 score0] fi [[IH1 IH2] IH3]]; simpl.
  - split; [split|].
    + intros _ name score [].
    + intros _. eexists. reflexivity.
    + intros e E. discriminate E.
  - destruct (float score0) as [x0|e0] eqn:Hx.
    + destruct (importance_records fi) as [rs'|e'] eqn:Hrs.
      * split; [split|].
        -- intros _ name score [E|H].
           ++ injection E as <- <-. eauto.
           ++ eapply IH1; [eexists; reflexivity | exact H].
        -- intros _. eexists. reflexivity.
        -- intros e E. discriminate E.
      * split; [split|].
        -- intros (rs & E). discriminate E.
        -- intros H. destruct IH2 as (rs & E); [|discriminate E].
           intros name score Hin. apply (H name score). now right.
        -- intros e E. injection E as <-.
           destruct (IH3 e' eq_refl) as (-> & name & z & Hin & Hz).
           split; [reflexivity|]. exists name, z. auto.
    + split; [split|].
      * intros (rs & E). discriminate E.
      * intros H. destruct (H name0 score0) as (x & E); [now left|].
        rewrite Hx in E. discriminate E.
      * intros e E. injection E as <-.
        destruct score0 as [z|f]; [|discriminate Hx].
        assert (e0 = Exception "OverflowError" "int too large to convert to float") as ->.
        { simpl in Hx. destruct (float_of_int z); try discriminate Hx.
          now injection Hx. }
        split; [reflexivity|]. exists name0, z. auto.
Qed.

(** X11. One integer score too large for a float discards the whole
    answer: although predict returned, the run prints the error "int too
    large to convert to float" and exits with 1. *)
Theorem oversized_score_fails_run (w : world) (d : list (string * value))
  (predictions : list value) (fi : list (string * number))
  (name : string) (z : Z) (s : bool) :
  stdin w = Document (VDict d) ->
  os_path_exists w (model_path w) = true ->
  load_models w (model_path w) = inr tt ->
  predict w (features_of d) (dict_get d "model_type" (VStr "ensemble"))
    = inr predictions ->
  truthy (dict_get d "include_importance" (VBool false)) = true ->
  get_feature_importance w "random_forest" = inr fi ->
  In (name, Int z) fi ->
  float_of_int z = S754_infinity s ->
  output (run w)
    = [VDict [("success", VBool false);
              ("error", VStr "int too large to convert to float")]] /\
  exit_code (run w) = 1.
Proof.
  intros Hs He Hl Hp Ht Hg Hin Hz.
  assert (R : exists e, importance_records fi = Raise e).
  { clear Hg. induction fi as [|[name0 score0] fi IH]; [destruct Hin|].
    simpl. destruct Hin as [E|Hin].
    - injection E as -> ->. simpl. rewrite Hz. eauto.
    - destruct (float score0); [|eauto].
      destruct (IH Hin) as (e & ->). eauto. }
  destruct R as (e & Hr).
  rewrite (run_importance_overflow w d Hs He Hl predictions Hp fi e Ht Hg Hr).
  rewrite (importance_records_raise fi e Hr). split; reflexivity.
Qed.

Lemma oversized_score_fails_run_witness :
  output (run (staged (Document xgboost_request) (inr tt) (inr [rice; maize])
                 (inr [("rainfall", Int 1); ("ph", Int (2 ^ 1024))])))
    = [VDict [("success", VBool false);
              ("error", VStr "int too large to convert to float")]] /\
  exit_code (run (staged (Document xgboost_request) (inr tt) (inr [rice; maize])
                    (inr [("rainfall", Int 1); ("ph", Int (2 ^ 1024))])))
    = 1.
Proof.
  eapply (oversized_score_fails_run
            (staged (Document xgboost_request) (inr tt) (inr [rice; maize])
               (inr [("rainfall", Int 1); ("ph", Int (2 ^ 1024))]))
            [("model_type", VStr "xgboost"); ("include_importance", VBool true)]
            [rice; maize]
            [("rainfall", Int 1); ("ph", Int (2 ^ 1024))]
            "ph" (2 ^ 1024) false).
  - reflexivity.
  - reflexivity.
  - reflexivity.
  - reflexivity.
  - reflexivity.
  - reflexivity.
  - right. left. reflexivity.
  - vm_compute. reflexivity.
Defined.

(** X12. A run ends with exit code 0 exactly when the request is an
    object, the artifact exists, load and predict return, the importance
    delegate, if the include_importance value is truthy, returns scores
    that float accepts, and json.dumps accepts the response built from
    these answers. *)
Theorem success_iff (w : world) :
  exit_code (run w) = 0 <->
  exists d predictions,
    stdin w = Document (VDict d) /\
    os_path_exists w (model_path w) = true /\
    load_models w (model_path w) = inr tt /\
    predict w (features_of d) (dict_get d "model_type" (VStr "ensemble"))
      = inr predictions /\
    ((truthy (dict_get d "include_importance" (VBool false)) = false /\
      json_dumps_error w (success_response predictions VNone) = None) \/
     (truthy (dict_get d "include_importance" (VBool false)) = true /\
      exists fi rs,
        get_feature_importance w "random_forest" = inr fi /\
        importance_records fi = Return rs /\
        json_dumps_error w (success_response predictions (VList rs)) = None)).
Proof.
  split.
  - by_path w; intros H; try discriminate H;
      exists d0, predictions;
      (split; [exact Hs|]); (split; [exact He|]); (split; [exact Hl|]);
      (split; [exact Hp|]).
    + left. split; assumption.
    + right. split; [assumption|]. exists fi, rs. repeat split; assumption.
  - intros (d & ps & Hreq & He & Hl & Hp
            & [(Ht & Hj)|(Ht & fi & rs & Hg & Hr & Hj)]).
    + now rewrite (run_plain w d Hreq He Hl ps Hp Ht Hj).
    + now rewrite (run_importance w d Hreq He Hl ps Hp fi rs Ht Hg Hr Hj).
Qed.

Lemma success_iff_witness :
  exit_code (run (deployment (Document sample_request) true)) = 0.
Proof.
  apply (proj2 (success_iff (deployment (Document sample_request) true))).
  exists [("N", VNum (Int 90)); ("P", VNum (Int 42)); ("K", VNum (Int 43));
          ("temperature", VNum (Float (S754_finite false 5854679515581645 (-48))));
          ("humidity", VNum (Int 82));
          ("ph", VNum (Float (S754_finite false 7318349394477056 (-50))));
          ("rainfall", VNum (Float (S754_finite false 7138909096824013 (-45))));
          ("model_type", VStr "ensemble")], [rice; maize].
  split; [reflexivity|]. split; [reflexivity|]. split; [reflexivity|].
  split; [reflexivity|]. left. split; reflexivity.
Defined.

(** X13. When everything up to line 70 succeeded but json.dumps raises on
    the response (an integer beyond the digit limit, nesting beyond the
    recursion limit), nothing of the predictions is printed: the run
    prints the condition as a generic error and exits with 1. *)
Theorem unserialisable_response_reported (w : world)
  (d : list (string * value)) (predictions : list value)
  (feature_importance : value) (cls msg : string) :
  stdin w = Document (VDict d) ->
  os_path_exists w (model_path w) = true ->
  load_models w (model_path w) = inr tt ->
  predict w (features_of d) (dict_get d "model_type" (VStr "ensemble"))
    = inr predictions ->
  (truthy (dict_get d "include_importance" (VBool false)) = false /\
   feature_importance = VNone) \/
  (truthy (dict_get d "include_importance" (VBool false)) = true /\
   exists fi rs,
     get_feature_importance w "random_forest" = inr fi /\
     importance_records fi = Return rs /\
     feature_importance = VList rs) ->
  json_dumps_error w (success_response predictions feature_importance)
    = Some (cls, msg) ->
  output (run w) = [VDict [("success", VBool false); ("error", VStr msg)]] /\
  exit_code (run w) = 1.
Proof.
  intros Hs He Hl Hp [(Ht & ->)|(Ht & fi & rs & Hg & Hr & ->)] Hj.
  - rewrite (run_plain_refused w d Hs He Hl predictions Hp cls msg Ht Hj).
    split; reflexivity.
  - rewrite (run_importance_refused w d Hs He Hl predictions Hp fi rs cls msg
               Ht Hg Hr Hj).
    split; reflexivity.
Qed.

Lemma unserialisable_response_reported_witness :
  output (run (staged (Document empty_request) (inr tt)
                 (inr [VNum (Int (2 ^ 14285))]) (inr [])))
    = [VDict [("success", VBool false);
              ("error", VStr "Exceeds the limit (4300 digits) for integer string conversion; use sys.set_int_max_str_digits() to increase the limit")]] /\
  exit_code (run (staged (Document empty_request) (inr tt)
                    (inr [VNum (Int (2 ^ 14285))]) (inr [])))
    = 1.
Proof.
  apply (unserialisable_response_reported
           (staged (Document empty_request) (inr tt)
              (inr [VNum (Int (2 ^ 14285))]) (inr []))
           [] [VNum (Int (2 ^ 14285))] VNone "ValueError").
  - reflexivity.
  - reflexivity.
  - reflexivity.
  - reflexivity.
  - left. split; reflexivity.
  - vm_compute. reflexivity.
Defined.

(** The sample encoder accepts 2^14284 - 1, of 4300 digits, and refuses
    - 2^14285, of 4301 digits. *)
Example default_encoder_limit :
  default_encoder (VList [VNum (Int (2 ^ 14284 - 1))]) = None /\
  exists msg,
    default_encoder (VDict [("yield", VNum (Int (- 2 ^ 14285)))])
    = Some ("ValueError", msg).
Proof. split; [vm_compute; reflexivity | eexists; vm_compute; reflexivity]. Qed.

End Extras.
